(** * cudf/options.py: the process-wide option registry

    A shallow embedding of [python/cudf/cudf/options.py].  The module keeps a
    global dictionary [_OPTIONS] from option names to [Option] objects and
    offers [_register_option], [get_option], [set_option] and
    [describe_option].

    Python features that matter here and how they are rendered:
    - [_OPTIONS] is an insertion-ordered [dict]: an association list in
      which assigning to an existing key keeps the key's position;
    - an [Option] is a mutable object that the dictionary only references:
      objects live in a store, the dictionary holds references, and
      [option.value = val] updates the store in place;
    - a call either returns a value or raises: [outcome];
    - [print] appends to the standard output, a component of the state;
    - values of type [Any] are restricted to [None], booleans, integers of
      any size and strings (no floats, no containers); a string is a
      sequence of characters with code points below 256;
    - [str] of an integer raises [ValueError] when the integer has more
      digits than CPython's default limit of 4300;
    - the standard output is open and takes every such text;
    - a validator is a callable that neither reads nor writes the
      registry: a function from the candidate to an outcome. *)

From Stdlib Require Import ZArith String Ascii List Bool Lia.
From stdpp Require Import base option list strings pretty.

Open Scope string_scope.

(** ** Values, exceptions, outcomes *)

Inductive Any : Type :=
  | PyNone
  | PyBool (b : bool)
  | PyInt (z : Z)
  | PyStr (s : string).
Arguments PyInt z%_Z.

Inductive exn : Type :=
  | KeyError (key : string)
  | ValueError (msg : string)
  | SystemError (msg : string)
  | Exception (cls msg : string).

Inductive outcome (A : Type) : Type :=
  | Return (a : A)
  | Raise (e : exn).
Arguments Return {A} a.
Arguments Raise {A} e.

(** [bool] is a subclass of [int] in Python: [True == 1], [False == 0]. *)
Definition py_eq (x y : Any) : bool :=
  match x, y with
  | PyNone, PyNone => true
  | PyBool a, PyBool b => Bool.eqb a b
  | PyBool a, PyInt z | PyInt z, PyBool a => Z.eqb (Z.b2z a) z
  | PyInt a, PyInt b => Z.eqb a b
  | PyStr a, PyStr b => String.eqb a b
  | _, _ => false
  end.

(** [x in l] for a list [l]. *)
Definition py_in (x : Any) (l : list Any) : bool := existsb (py_eq x) l.

(** CPython's default [sys.get_int_max_str_digits()]. *)
Definition int_max_str_digits : Z := 4300.

(** Whether an integer has at most [int_max_str_digits] decimal digits (the
    sign is not counted), that is, whether its absolute value is below
    [10 ** 4300]. *)
Definition str_digits_ok (z : Z) : bool :=
  (Z.abs z <? 10 ^ int_max_str_digits)%Z.

(** What conversion of a longer integer raises. *)
Definition digits_error : exn :=
  ValueError ("Exceeds the limit (4300) for integer string conversion; "
              +:+ "use sys.set_int_max_str_digits() to increase the limit").

(** The values [str] converts without raising. *)
Definition printable (x : Any) : bool :=
  match x with
  | PyInt z => str_digits_ok z
  | _ => true
  end.

(** [str(x)], which is what an f-string field [{x}] formats to. *)
Definition py_str (x : Any) : outcome string :=
  match x with
  | PyNone => Return "None"
  | PyBool true => Return "True"
  | PyBool false => Return "False"
  | PyInt z => if str_digits_ok z then Return (pretty z) else Raise digits_error
  | PyStr s => Return s
  end.

Definition nl : string := String (ascii_of_nat 10) EmptyString.
Definition tab : string := String (ascii_of_nat 9) EmptyString.

(** [sep.join(l)]. *)
Fixpoint join (sep : string) (l : list string) : string :=
  match l with
  | [] => EmptyString
  | [x] => x
  | x :: l' => x +:+ sep +:+ join sep l'
  end.

(** [needle in haystack] for strings. *)
Fixpoint contains (needle haystack : string) : bool :=
  String.prefix needle haystack ||
  match haystack with
  | EmptyString => false
  | String _ rest => contains needle rest
  end.

(** ** The [Option] dataclass *)

Definition Callable : Type := Any -> outcome Any.

Record Option : Type := mkOption {
  default : Any;
  value : Any;
  description : string;
  validator : Callable
}.

(** [opt.value = val] on a record. *)
Definition with_value (opt : Option) (val : Any) : Option :=
  mkOption (default opt) val (description opt) (validator opt).

(** ** Insertion-ordered dictionaries with string keys *)

Definition Dict (V : Type) : Type := list (string * V).

Fixpoint dict_get {V} (d : Dict V) (k : string) : option V :=
  match d with
  | [] => None
  | (k', v) :: d' => if String.eqb k' k then Some v else dict_get d' k
  end.

Fixpoint dict_set {V} (d : Dict V) (k : string) (v : V) : Dict V :=
  match d with
  | [] => [(k, v)]
  | (k', v') :: d' =>
      if String.eqb k' k then (k', v) :: d' else (k', v') :: dict_set d' k v
  end.

Definition keys {V} (d : Dict V) : list string := map fst d.
Definition values {V} (d : Dict V) : list V := map snd d.

(** ** The interpreter state and its monad *)

Definition ref : Type := nat.

Record state : Type := mkState {
  _OPTIONS : Dict ref;
  heap : list Option;
  stdout : string
}.

Definition M (A : Type) : Type := state -> outcome A * state.

Definition ret {A} (a : A) : M A := fun s => (Return a, s).

Definition raise {A} (e : exn) : M A := fun s => (Raise e, s).

Definition bind {A B} (m : M A) (k : A -> M B) : M B :=
  fun s =>
    match m s with
    | (Return a, s') => k a s'
    | (Raise e, s') => (Raise e, s')
    end.

Declare Scope py_scope.
Delimit Scope py_scope with py.
Notation "'let!' x ':=' m 'in' k" := (bind m (fun x => k))
  (at level 10, x name, m at level 100, k at level 200) : py_scope.
Notation "'do!' m 'in' k" := (bind m (fun _ => k))
  (at level 10, m at level 100, k at level 200) : py_scope.
Open Scope py_scope.

(** [_OPTIONS[name]]: raises [KeyError(name)] when the key is absent. *)
Definition getitem (name : string) : M ref :=
  fun s =>
    match dict_get (_OPTIONS s) name with
    | Some r => ret r s
    | None => raise (KeyError name) s
    end.

(** [_OPTIONS[name] = r]. *)
Definition setitem (name : string) (r : ref) : M unit :=
  fun s =>
    (Return tt, mkState (dict_set (_OPTIONS s) name r) (heap s) (stdout s)).

(** Object construction: a fresh reference to a new object. *)
Definition new (opt : Option) : M ref :=
  fun s =>
    (Return (length (heap s)),
     mkState (_OPTIONS s) (heap s ++ [opt]) (stdout s)).

(** Reading the object behind a reference.  A reference outside the store
    cannot be built by the operations below ([load_wf]); the interpreter's
    internal error stands for it. *)
Definition load (r : ref) : M Option :=
  fun s =>
    match heap s !! r with
    | Some opt => ret opt s
    | None => raise (SystemError "dangling reference") s
    end.

(** [r.value = val]: in-place update of the referenced object. *)
Definition setattr_value (r : ref) (val : Any) : M unit :=
  fun s =>
    match heap s !! r with
    | Some opt =>
        (Return tt,
         mkState (_OPTIONS s) (<[r := with_value opt val]> (heap s)) (stdout s))
    | None => (Raise (SystemError "dangling reference"), s)
    end.

(** Calling a validator. *)
Definition call (f : Callable) (x : Any) : M Any := fun s => (f x, s).

(** A computation that does not touch the state. *)
Definition lift {A} (o : outcome A) : M A := fun s => (o, s).

(** [print(text)]. *)
Definition print (text : string) : M unit :=
  fun s =>
    (Return tt, mkState (_OPTIONS s) (heap s) (stdout s +:+ text +:+ nl)).

(** [_OPTIONS.items()], with every reference followed. *)
Fixpoint load_items (d : Dict ref) : M (list (string * Option)) :=
  match d with
  | [] => ret []
  | (name, r) :: d' =>
      let! opt := load r in
      let! rest := load_items d' in
      ret ((name, opt) :: rest)
  end.

Definition items : M (list (string * Option)) :=
  fun s => load_items (_OPTIONS s) s.

(** ** The module's functions *)

Definition _register_option
    (name : string) (default_value : Any) (description : string)
    (validator : Callable) : M unit :=
  do! call validator default_value in
  let! opt := new (mkOption default_value default_value description validator) in
  setitem name opt.

Definition get_option (name : string) : M Any :=
  let! option := getitem name in
  let! opt := load option in
  ret (value opt).

Definition set_option (name : string) (val : Any) : M unit :=
  let! option := getitem name in
  let! opt := load option in
  do! call (validator opt) val in
  setattr_value option val.

(** The f-string formats its fields from left to right: [opt.default]
    first, then [opt.value]; the first conversion that raises ends it. *)
Definition _build_option_description
    (name : string) (opt : Option) : outcome string :=
  match py_str (default opt) with
  | Raise e => Raise e
  | Return d =>
      match py_str (value opt) with
      | Raise e => Raise e
      | Return v =>
          Return (name +:+ ":" +:+ nl
                  +:+ tab +:+ description opt +:+ nl
                  +:+ tab +:+ "[Default: " +:+ d
                  +:+ "] [Current: " +:+ v +:+ "]")
      end
  end.

(** The generator that [join] consumes: one description per item, in
    order, up to the first that raises. *)
Fixpoint build_all (its : list (string * Option)) : outcome (list string) :=
  match its with
  | [] => Return []
  | (name, opt) :: its' =>
      match _build_option_description name opt with
      | Raise e => Raise e
      | Return text =>
          match build_all its' with
          | Raise e => Raise e
          | Return rest => Return (text :: rest)
          end
      end
  end.

Definition describe_option (name : option string) : M unit :=
  match name with
  | None =>
      let! its := items in
      let! texts := lift (build_all its) in
      print (join nl texts)
  | Some name =>
      let! option := getitem name in
      let! opt := load option in
      let! text := lift (_build_option_description name opt) in
      print text
  end.

(** ** Module initialisation *)

Definition integer_bitwidth_description : string :=
  "Default integer bitwidth when inferring integer column or scalars."
  +:+ "Influences integer column bitwidth for csv, json readers if unspecified "
  +:+ "and integer column bitwidth constructed from python scalar and lists. "
  +:+ "Valid values are 32 or 64.".

Definition float_bitwidth_description : string :=
  "Default float bitwidth when inferring float column or scalars."
  +:+ "Influences float column bitwidth for csv, json readers if unspecified "
  +:+ "and float column bitwidth constructed from python scalar and lists. "
  +:+ "Valid values are 32 or 64.".

(** [lambda x: x in [32, 64]] *)
Definition bitwidth_validator : Callable :=
  fun x => Return (PyBool (py_in x [PyInt 32; PyInt 64])).

Definition empty : state := mkState [] [] EmptyString.

Definition module_body : M unit :=
  do! _register_option "default_integer_bitwidth" (PyInt 64)
        integer_bitwidth_description bitwidth_validator in
  _register_option "default_float_bitwidth" (PyInt 64)
        float_bitwidth_description bitwidth_validator.

Definition initial : state := snd (module_body empty).


(** ** Views of the state *)

(** The [Option] a name is bound to, reference followed. *)
Definition entry (s : state) (name : string) : option Option :=
  match dict_get (_OPTIONS s) name with
  | Some r => heap s !! r
  | None => None
  end.

(** [name in _OPTIONS]. *)
Definition registered (s : state) (name : string) : Prop :=
  is_Some (dict_get (_OPTIONS s) name).

(** A validator call that completes without raising. *)
Definition passes (f : Callable) (x : Any) : Prop := exists r, f x = Return r.

(** Shape of the states Python can be in: the dictionary has one slot per
    key, no two slots share an object, and every reference is live. *)
Definition wf (s : state) : Prop :=
  NoDup (keys (_OPTIONS s)) /\
  NoDup (values (_OPTIONS s)) /\
  Forall (fun r => r < length (heap s)) (values (_OPTIONS s)).

(** ** Calls and the states they reach *)

Inductive op : Type :=
  | Register (name : string) (default_value : Any) (description : string)
             (validator : Callable)
  | Get (name : string)
  | Set_ (name : string) (val : Any)
  | Describe (name : option string).

(** The state a call leaves behind, whether it returned or raised. *)
Definition exec (c : op) (s : state) : state :=
  match c with
  | Register name d desc f => snd (_register_option name d desc f s)
  | Get name => snd (get_option name s)
  | Set_ name val => snd (set_option name val s)
  | Describe name => snd (describe_option name s)
  end.

Inductive reachable : state -> Prop :=
  | reachable_empty : reachable empty
  | reachable_exec c s : reachable s -> reachable (exec c s).

(** Every object in the store holds a value on which its validator
    returned without raising. *)
Definition values_pass (s : state) : Prop :=
  Forall (fun opt => passes (validator opt) (value opt)) (heap s).

(** Whether a call is a registration of [name]. *)
Definition registers (name : string) (c : op) : bool :=
  match c with
  | Register n _ _ _ => String.eqb n name
  | _ => false
  end.

(** The concrete scenario on [default_integer_bitwidth]: the states after
    [set_option(name, 32)] and after a further [set_option(name, 16)]. *)
Definition after_set_32 : state :=
  snd (set_option "default_integer_bitwidth" (PyInt 32) initial).

Definition after_set_16 : state :=
  snd (set_option "default_integer_bitwidth" (PyInt 16) after_set_32).

(** An [Option] whose default and value [str] converts. *)
Definition printable_option (opt : Option) : bool :=
  printable (default opt) && printable (value opt).


(** A call with its result: what the caller gets back, [None] for the
    functions that end without a [return]. *)
Definition run (c : op) : M Any :=
  match c with
  | Register name d desc f =>
      do! _register_option name d desc f in ret PyNone
  | Get name => get_option name
  | Set_ name val => do! set_option name val in ret PyNone
  | Describe name => do! describe_option name in ret PyNone
  end.

(** Whether a call is a [describe_option]. *)
Definition is_describe (c : op) : bool :=
  match c with
  | Describe _ => true
  | _ => false
  end.

(** * Properties *)

(** ** Dictionaries *)

Section DictFacts.
Context {V : Type}.
Implicit Types (d : Dict V) (k : string) (v : V).

Lemma dict_get_set_eq d k v : dict_get (dict_set d k v) k = Some v.
Proof.
  induction d as [|[k' v'] d IH]; simpl.
  - by rewrite String.eqb_refl.
  - destruct (String.eqb k' k) eqn:E; simpl; by rewrite E.
Qed.

Lemma dict_get_set_ne d k k' v :
  k <> k' -> dict_get (dict_set d k v) k' = dict_get d k'.
Proof.
  intros Hne. induction d as [|[k0 v0] d IH]; simpl.
  - apply String.eqb_neq in Hne. by rewrite Hne.
  - destruct (String.eqb k0 k) eqn:E; simpl.
    + apply String.eqb_eq in E as ->.
      apply String.eqb_neq in Hne. by rewrite Hne.
    + by rewrite IH.
Qed.

Lemma dict_get_keys d k : is_Some (dict_get d k) <-> k ∈ keys d.
Proof.
  induction d as [|[k0 v0] d IH]; simpl.
  - split; [intros [? ?]; discriminate | intros H; inversion H].
  - destruct (String.eqb k0 k) eqn:E.
    + apply String.eqb_eq in E as ->. split; [left | eauto].
    + apply String.eqb_neq in E. rewrite IH. split.
      * by right.
      * intros H. inversion H; subst; [congruence | done].
Qed.

Lemma dict_get_values d k v : dict_get d k = Some v -> v ∈ values d.
Proof.
  induction d as [|[k0 v0] d IH]; simpl; [discriminate|].
  destruct (String.eqb k0 k); intros H.
  - injection H as ->. left.
  - right. by apply IH.
Qed.

(** Assigning to a key that is present keeps the keys and their order. *)
Lemma keys_dict_set_present d k v :
  is_Some (dict_get d k) -> keys (dict_set d k v) = keys d.
Proof.
  induction d as [|[k0 v0] d IH]; simpl.
  - intros [? ?]; discriminate.
  - destruct (String.eqb k0 k) eqn:E; simpl; [done|].
    intros H. by rewrite IH.
Qed.

(** Assigning to a new key appends it. *)
Lemma keys_dict_set_absent d k v :
  dict_get d k = None -> keys (dict_set d k v) = (keys d ++ [k])%list.
Proof.
  induction d as [|[k0 v0] d IH]; simpl; [done|].
  destruct (String.eqb k0 k) eqn:E; simpl; [discriminate|].
  intros H. by rewrite IH.
Qed.

Lemma keys_dict_set_NoDup d k v :
  NoDup (keys d) -> NoDup (keys (dict_set d k v)).
Proof.
  intros Hnd. destruct (dict_get d k) as [v0|] eqn:E.
  - rewrite keys_dict_set_present; [done | by eexists].
  - rewrite keys_dict_set_absent by done.
    apply NoDup_app. split_and!; [done | | apply NoDup_singleton].
    intros x Hx Hk. apply list_elem_of_singleton in Hk as ->.
    apply dict_get_keys in Hx as [? ?]. congruence.
Qed.

Lemma values_dict_set d k v x :
  x ∈ values (dict_set d k v) -> x = v \/ x ∈ values d.
Proof.
  induction d as [|[k0 v0] d IH]; simpl.
  - intros H. apply list_elem_of_singleton in H. by left.
  - destruct (String.eqb k0 k); simpl; intros H.
    + inversion H; subst; [by left | right; by right].
    + inversion H; subst; [right; left |].
      destruct IH as [-> | ?]; [done | by left | right; by right].
Qed.

Lemma values_dict_set_NoDup d k v :
  NoDup (values d) -> v ∉ values d -> NoDup (values (dict_set d k v)).
Proof.
  induction d as [|[k0 v0] d IH]; simpl; intros Hnd Hv.
  - apply NoDup_singleton.
  - apply NoDup_cons in Hnd as [Hv0 Hnd].
    apply not_elem_of_cons in Hv as [Hne Hv].
    destruct (String.eqb k0 k); simpl; apply NoDup_cons.
    + done.
    + split; [|by apply IH].
      intros Hin. apply values_dict_set in Hin as [-> | ?]; done.
Qed.

(** With no object shared between slots, a reference determines its key. *)
Lemma dict_get_inj d k k' v :
  NoDup (values d) ->
  dict_get d k = Some v -> dict_get d k' = Some v -> k = k'.
Proof.
  induction d as [|[k0 v0] d IH]; simpl; [discriminate|].
  intros Hnd. apply NoDup_cons in Hnd as [Hv0 Hnd].
  destruct (String.eqb k0 k) eqn:E, (String.eqb k0 k') eqn:E'.
  - apply String.eqb_eq in E, E'. congruence.
  - intros [= ->] H'. apply dict_get_values in H'. done.
  - intros H [= ->]. apply dict_get_values in H. done.
  - by apply IH.
Qed.
End DictFacts.

(** ** One equation per function *)

Ltac unfold_monad :=
  unfold bind, getitem, setitem, new, load, setattr_value, call, lift,
    print, items, ret, raise in *.

Lemma get_option_eq name s :
  get_option name s =
    match dict_get (_OPTIONS s) name with
    | None => (Raise (KeyError name), s)
    | Some r =>
        match heap s !! r with
        | None => (Raise (SystemError "dangling reference"), s)
        | Some opt => (Return (value opt), s)
        end
    end.
Proof.
  unfold get_option; unfold_monad.
  destruct (dict_get _ _); [|done]. by destruct (heap s !! _).
Qed.

Lemma set_option_eq name val s :
  set_option name val s =
    match dict_get (_OPTIONS s) name with
    | None => (Raise (KeyError name), s)
    | Some r =>
        match heap s !! r with
        | None => (Raise (SystemError "dangling reference"), s)
        | Some opt =>
            match validator opt val with
            | Raise e => (Raise e, s)
            | Return _ =>
                (Return tt,
                 mkState (_OPTIONS s) (<[r := with_value opt val]> (heap s))
                         (stdout s))
            end
        end
    end.
Proof.
  unfold set_option; unfold_monad.
  destruct (dict_get _ _) as [r|]; [|done].
  destruct (heap s !! r) as [opt|] eqn:E; [|done].
  destruct (validator opt val); [|done]. simpl. by rewrite E.
Qed.

Lemma _register_option_eq name d desc f s :
  _register_option name d desc f s =
    match f d with
    | Raise e => (Raise e, s)
    | Return _ =>
        (Return tt,
         mkState (dict_set (_OPTIONS s) name (length (heap s)))
                 (heap s ++ [mkOption d d desc f]) (stdout s))
    end.
Proof. unfold _register_option; unfold_monad. by destruct (f d). Qed.

Lemma load_items_state d s : snd (load_items d s) = s.
Proof.
  induction d as [|[name r] d IH]; simpl; [done|].
  unfold_monad. destruct (heap s !! r); [|done].
  destruct (load_items d s) as [[its|e] s'] eqn:E; simpl in *; congruence.
Qed.

Lemma describe_option_eq name s :
  describe_option (Some name) s =
    match entry s name with
    | Some opt =>
        match _build_option_description name opt with
        | Return text =>
            (Return tt,
             mkState (_OPTIONS s) (heap s) (stdout s +:+ text +:+ nl))
        | Raise e => (Raise e, s)
        end
    | None =>
        match dict_get (_OPTIONS s) name with
        | None => (Raise (KeyError name), s)
        | Some _ => (Raise (SystemError "dangling reference"), s)
        end
    end.
Proof.
  unfold describe_option, entry; unfold_monad.
  destruct (dict_get _ _) as [r|]; [|done].
  destruct (heap s !! r) as [opt|]; [|done].
  by destruct (_build_option_description name opt).
Qed.

Lemma describe_option_None_eq s :
  describe_option None s =
    match load_items (_OPTIONS s) s with
    | (Return its, _) =>
        match build_all its with
        | Return texts =>
            (Return tt,
             mkState (_OPTIONS s) (heap s)
                     (stdout s +:+ join nl texts +:+ nl))
        | Raise e => (Raise e, s)
        end
    | (Raise e, _) => (Raise e, s)
    end.
Proof.
  unfold describe_option; unfold_monad.
  pose proof (load_items_state (_OPTIONS s) s) as H.
  destruct (load_items _ s) as [[its|e] s']; simpl in *; subst; [|done].
  by destruct (build_all its).
Qed.

(** [describe_option] touches nothing but the standard output. *)
Lemma describe_option_registry name s :
  _OPTIONS (snd (describe_option name s)) = _OPTIONS s /\
  heap (snd (describe_option name s)) = heap s.
Proof.
  destruct name as [name|].
  - rewrite describe_option_eq. destruct (entry s name) as [opt|].
    + by destruct (_build_option_description name opt).
    + by destruct (dict_get _ _).
  - rewrite describe_option_None_eq.
    destruct (load_items _ s) as [[its|e] s']; [|done].
    by destruct (build_all its).
Qed.

(** ** Well-formedness of reachable states *)

Lemma wf_empty : wf empty.
Proof. repeat split; simpl; constructor. Qed.

Lemma _register_option_wf name d desc f s :
  wf s -> wf (snd (_register_option name d desc f s)).
Proof.
  intros (Hk & Hv & Hlive). rewrite _register_option_eq.
  destruct (f d); [|done]. simpl.
  assert (Hfresh : length (heap s) ∉ values (_OPTIONS s)).
  { intros Hin. rewrite Forall_forall in Hlive. apply Hlive in Hin. lia. }
  split_and!.
  - by apply keys_dict_set_NoDup.
  - by apply values_dict_set_NoDup.
  - apply Forall_forall. intros r Hr. simpl in *. rewrite length_app. simpl.
    apply values_dict_set in Hr as [-> | Hr]; [lia|].
    rewrite Forall_forall in Hlive. apply Hlive in Hr. lia.
Qed.

Lemma set_option_wf name val s : wf s -> wf (snd (set_option name val s)).
Proof.
  intros Hwf. rewrite set_option_eq.
  destruct (dict_get _ _) as [r|]; [|done].
  destruct (heap s !! r) as [opt|]; [|done].
  destruct (validator opt val); [|done].
  destruct Hwf as (Hk & Hv & Hlive). split_and!; simpl; try done.
  by rewrite length_insert.
Qed.

Lemma exec_wf c s : wf s -> wf (exec c s).
Proof.
  intros Hwf. destruct c as [name d desc f|name|name val|name]; simpl.
  - by apply _register_option_wf.
  - rewrite get_option_eq. destruct (dict_get _ _) as [r|]; [|done].
    by destruct (heap s !! r).
  - by apply set_option_wf.
  - destruct (describe_option_registry name s) as [Hd Hh].
    unfold wf. by rewrite Hd, Hh.
Qed.

Lemma reachable_wf s : reachable s -> wf s.
Proof. induction 1; [apply wf_empty | by apply exec_wf]. Qed.

(** In a well-formed state a registered name has an entry: [load] never
    meets a dangling reference. *)
Lemma load_wf s name r :
  wf s -> dict_get (_OPTIONS s) name = Some r -> is_Some (heap s !! r).
Proof.
  intros (_ & _ & Hlive) Hget. apply lookup_lt_is_Some.
  rewrite Forall_forall in Hlive. apply Hlive.
  by apply dict_get_values in Hget.
Qed.

Lemma registered_entry s name :
  wf s -> registered s name -> is_Some (entry s name).
Proof.
  intros Hwf [r Hr]. unfold entry. rewrite Hr. by eapply load_wf.
Qed.

Lemma entry_registered s name opt :
  entry s name = Some opt -> registered s name.
Proof.
  unfold entry, registered. destruct (dict_get _ _); [eauto | discriminate].
Qed.

(** ** What the validator's outcome decides *)

(** When the validator raises, [set_option] raises the same exception and
    the state is the one before the call. *)
Lemma set_option_raise s name opt val e :
  entry s name = Some opt -> validator opt val = Raise e ->
  set_option name val s = (Raise e, s).
Proof.
  unfold entry. intros Hentry Hval. rewrite set_option_eq.
  destruct (dict_get _ _) as [r|]; [|discriminate].
  by rewrite Hentry, Hval.
Qed.

(** When the validator returns, whatever it returns, the candidate is
    stored: the returned value is not looked at. *)
Lemma set_option_return s name r opt val res :
  dict_get (_OPTIONS s) name = Some r -> heap s !! r = Some opt ->
  validator opt val = Return res ->
  set_option name val s =
    (Return tt,
     mkState (_OPTIONS s) (<[r := with_value opt val]> (heap s)) (stdout s)).
Proof. intros Hget Hr Hval. by rewrite set_option_eq, Hget, Hr, Hval. Qed.

Lemma exec_values_pass c s : values_pass s -> values_pass (exec c s).
Proof.
  unfold values_pass. intros Hs.
  destruct c as [name d desc f|name|name val|name]; simpl.
  - rewrite _register_option_eq. destruct (f d) as [res|e] eqn:E; [|done].
    simpl. apply Forall_app. split; [done|].
    apply Forall_singleton. by exists res.
  - rewrite get_option_eq. destruct (dict_get _ _) as [r|]; [|done].
    by destruct (heap s !! r).
  - rewrite set_option_eq. destruct (dict_get _ _) as [r|]; [|done].
    destruct (heap s !! r) as [opt|]; [|done].
    destruct (validator opt val) as [res|e] eqn:E; [|done].
    simpl. apply Forall_insert; [done|]. by exists res.
  - destruct (describe_option_registry name s) as [_ Hh]. by rewrite Hh.
Qed.

Lemma reachable_values_pass s name opt :
  reachable s -> entry s name = Some opt ->
  passes (validator opt) (value opt).
Proof.
  intros Hreach Hentry.
  assert (Hall : values_pass s).
  { clear Hentry. induction Hreach; [constructor | by apply exec_values_pass]. }
  unfold entry in Hentry. destruct (dict_get _ _) as [r|]; [|discriminate].
  unfold values_pass in Hall. rewrite Forall_forall in Hall.
  apply Hall. by eapply list_elem_of_lookup_2.
Qed.

(** ** Names that were never registered *)

Lemma exec_registered c s name :
  registered (exec c s) name -> registered s name \/ registers name c = true.
Proof.
  destruct c as [n d desc f|n|n val|n]; simpl.
  - rewrite _register_option_eq. destruct (f d); [|by left]. simpl.
    unfold registered. simpl. destruct (String.eqb n name) eqn:E; [by right|].
    apply String.eqb_neq in E. rewrite dict_get_set_ne by done. by left.
  - rewrite get_option_eq. destruct (dict_get _ n) as [r|]; [|by left].
    destruct (heap s !! r); by left.
  - rewrite set_option_eq. destruct (dict_get _ n) as [r|]; [|by left].
    destruct (heap s !! r) as [opt|]; [|by left].
    destruct (validator opt val); by left.
  - destruct (describe_option_registry n s) as [Hd _].
    unfold registered. rewrite Hd. by left.
Qed.

(** A name no call of the history registers is absent from [_OPTIONS]. *)
Lemma never_registered_absent cs name :
  forallb (fun c => negb (registers name c)) cs = true ->
  ~ registered (foldr exec empty cs) name.
Proof.
  induction cs as [|c cs IH]; simpl.
  - intros _ [r Hr]. discriminate.
  - intros H. apply andb_prop in H as [Hc Hcs].
    intros Hreg. apply exec_registered in Hreg as [Hreg | Hreg].
    + by apply IH.
    + rewrite Hreg in Hc. discriminate.
Qed.

(** ** Unknown names *)

(** C4: for a name [m] that is not in the registry, [get_option(m)],
    [set_option(m, v)] for any [v] and [describe_option(m)] all raise
    [KeyError(m)], the error reaches the caller as the result of the call,
    and the state is untouched (nothing is printed).  By
    [never_registered_absent] this covers every name that no call ever
    registered. *)
Theorem unknown_option_raises s m v :
  ~ registered s m ->
  get_option m s = (Raise (KeyError m), s) /\
  set_option m v s = (Raise (KeyError m), s) /\
  describe_option (Some m) s = (Raise (KeyError m), s).
Proof.
  intros Hm.
  assert (Hget : dict_get (_OPTIONS s) m = None).
  { destruct (dict_get (_OPTIONS s) m) eqn:E; [|done].
    exfalso. apply Hm. by eexists. }
  rewrite get_option_eq, set_option_eq, describe_option_eq.
  unfold entry. by rewrite Hget.
Qed.

Lemma unknown_option_raises_witness :
  get_option "default_bitwidth" initial
    = (Raise (KeyError "default_bitwidth"), initial) /\
  set_option "default_bitwidth" (PyInt 32) initial
    = (Raise (KeyError "default_bitwidth"), initial) /\
  describe_option (Some "default_bitwidth") initial
    = (Raise (KeyError "default_bitwidth"), initial).
Proof.
  apply (unknown_option_raises initial "default_bitwidth" (PyInt 32)).
  intros [r Hr]. vm_compute in Hr. discriminate.
Defined.

(** ** Reading *)

(** C9: [get_option(n)] on a registered name returns the value currently
    stored in [n]'s entry, and the state after the call is the state before
    it: dictionary, every object's four fields, and standard output. *)
Theorem get_option_no_side_effect s n opt :
  entry s n = Some opt ->
  get_option n s = (Return (value opt), s).
Proof.
  unfold entry. intros Hentry. rewrite get_option_eq.
  destruct (dict_get _ _) as [r|]; [|discriminate]. by rewrite Hentry.
Qed.

Lemma get_option_no_side_effect_witness :
  get_option "default_float_bitwidth" initial = (Return (PyInt 64), initial).
Proof.
  apply (get_option_no_side_effect initial "default_float_bitwidth"
           (mkOption (PyInt 64) (PyInt 64) float_bitwidth_description
                     bitwidth_validator)).
  reflexivity.
Defined.

(** Raising or not, [get_option] leaves the state alone. *)
Lemma get_option_state n s : snd (get_option n s) = s.
Proof.
  rewrite get_option_eq. destruct (dict_get _ _) as [r|]; [|done].
  by destruct (heap s !! r).
Qed.

(** ** Registration *)

(** C6: when registration of [n] with default [d] goes through, a
    [get_option(n)] right after it returns [d]. *)
Theorem get_option_after_register s n d desc f :
  passes f d ->
  exists s',
    _register_option n d desc f s = (Return tt, s') /\
    get_option n s' = (Return d, s').
Proof.
  intros [res Hres]. eexists. split.
  - by rewrite _register_option_eq, Hres.
  - rewrite get_option_eq. simpl. rewrite dict_get_set_eq.
    by rewrite list_lookup_middle.
Qed.

Lemma get_option_after_register_witness :
  exists s',
    _register_option "default_integer_bitwidth" (PyInt 64)
      integer_bitwidth_description bitwidth_validator empty = (Return tt, s') /\
    get_option "default_integer_bitwidth" s' = (Return (PyInt 64), s').
Proof.
  apply (get_option_after_register empty "default_integer_bitwidth" (PyInt 64)
           integer_bitwidth_description bitwidth_validator).
  exists (PyBool true). reflexivity.
Defined.

(** When the validator raises on the default value, [_register_option]
    raises that same exception and the state is the one before the call:
    no object is created and [_OPTIONS] gains no key. *)
Lemma register_invalid_default s n d desc f e :
  f d = Raise e ->
  _register_option n d desc f s = (Raise e, s).
Proof. intros Hf. by rewrite _register_option_eq, Hf. Qed.

Lemma register_invalid_default_witness :
  _register_option "default_integer_bitwidth" (PyInt 16) "bitwidth"
    (fun x => if py_in x [PyInt 32; PyInt 64] then Return PyNone
              else Raise (ValueError "Valid values are 32 or 64."))
    empty
  = (Raise (ValueError "Valid values are 32 or 64."), empty).
Proof.
  apply (register_invalid_default empty "default_integer_bitwidth" (PyInt 16)).
  reflexivity.
Defined.

(** C8: registering a name that is already present raises no error when the
    validator lets the new default through; afterwards the name is bound to
    an [Option] made of the second call's default (as default and as
    value), description and validator, and the dictionary has the same keys
    in the same order, so the earlier entry is gone. *)
Theorem register_twice_last_wins s n d desc f :
  registered s n -> passes f d ->
  exists s',
    _register_option n d desc f s = (Return tt, s') /\
    entry s' n = Some (mkOption d d desc f) /\
    keys (_OPTIONS s') = keys (_OPTIONS s).
Proof.
  intros Hreg [res Hres]. eexists. split_and!.
  - by rewrite _register_option_eq, Hres.
  - unfold entry. simpl. rewrite dict_get_set_eq.
    by rewrite list_lookup_middle.
  - simpl. by apply keys_dict_set_present.
Qed.

Lemma register_twice_last_wins_witness :
  exists s',
    _register_option "default_float_bitwidth" (PyInt 32) "float width"
      (fun _ => Return PyNone) initial = (Return tt, s') /\
    entry s' "default_float_bitwidth"
      = Some (mkOption (PyInt 32) (PyInt 32) "float width"
                       (fun _ => Return PyNone)) /\
    keys (_OPTIONS s') = keys (_OPTIONS initial).
Proof.
  apply (register_twice_last_wins initial "default_float_bitwidth" (PyInt 32)
           "float width" (fun _ => Return PyNone)).
  - exists 1. reflexivity.
  - exists PyNone. reflexivity.
Defined.


(** ** Writing *)

(** C5: for a registered [n] and a value [v] on which [n]'s validator
    returns without raising, [set_option(n, v)] returns normally and a
    [get_option(n)] after it returns [v]. *)
Theorem get_option_after_set s n opt v :
  entry s n = Some opt -> passes (validator opt) v ->
  exists s',
    set_option n v s = (Return tt, s') /\
    get_option n s' = (Return v, s').
Proof.
  unfold entry. intros Hentry [res Hres].
  destruct (dict_get (_OPTIONS s) n) as [r|] eqn:Hget; [|discriminate].
  eexists. split.
  - by eapply set_option_return.
  - rewrite get_option_eq. simpl. rewrite Hget.
    rewrite list_lookup_insert_eq; [done|]. by eapply lookup_lt_Some.
Qed.

Lemma get_option_after_set_witness :
  exists s',
    set_option "default_integer_bitwidth" (PyInt 32) initial = (Return tt, s') /\
    get_option "default_integer_bitwidth" s' = (Return (PyInt 32), s').
Proof.
  apply (get_option_after_set initial "default_integer_bitwidth"
           (mkOption (PyInt 64) (PyInt 64) integer_bitwidth_description
                     bitwidth_validator) (PyInt 32)).
  - reflexivity.
  - exists (PyBool true). reflexivity.
Defined.

(** Whenever [set_option] returns normally, the next read sees the value
    just written. *)
Lemma set_option_then_get s s' n v :
  set_option n v s = (Return tt, s') -> get_option n s' = (Return v, s').
Proof.
  rewrite set_option_eq, get_option_eq.
  destruct (dict_get (_OPTIONS s) n) as [r|] eqn:Hget; [|discriminate].
  destruct (heap s !! r) as [opt|] eqn:Hr; [|discriminate].
  destruct (validator opt v); [|discriminate].
  intros [= <-]. simpl. rewrite Hget.
  rewrite list_lookup_insert_eq; [done|]. by eapply lookup_lt_Some.
Qed.

(** C10: in a well-formed state, a [set_option(n, v)] that returns normally
    changes the [value] field of [n]'s entry to [v] and nothing else: the
    entry keeps its default, description and validator, every other name
    has the entry it had, the dictionary itself is the same, and nothing is
    printed. *)
Theorem set_option_frame s s' n v :
  wf s -> set_option n v s = (Return tt, s') ->
  exists opt opt',
    entry s n = Some opt /\ entry s' n = Some opt' /\
    value opt' = v /\
    default opt' = default opt /\
    description opt' = description opt /\
    validator opt' = validator opt /\
    (forall m, m <> n -> entry s' m = entry s m) /\
    _OPTIONS s' = _OPTIONS s /\
    stdout s' = stdout s.
Proof.
  intros (_ & Hnodup & _). rewrite set_option_eq. unfold entry.
  destruct (dict_get (_OPTIONS s) n) as [r|] eqn:Hget; [|discriminate].
  destruct (heap s !! r) as [opt|] eqn:Hr; [|discriminate].
  destruct (validator opt v); [|discriminate].
  intros [= <-]. simpl. rewrite Hget.
  exists opt, (with_value opt v). split_and!; try done.
  - rewrite list_lookup_insert_eq; [done|]. by eapply lookup_lt_Some.
  - intros m Hm.
    destruct (dict_get (_OPTIONS s) m) as [r'|] eqn:Hget'; [|done].
    apply list_lookup_insert_ne. intros <-.
    apply Hm. by eapply dict_get_inj.
Qed.

Lemma set_option_frame_witness :
  exists opt opt',
    entry initial "default_integer_bitwidth" = Some opt /\
    entry after_set_32 "default_integer_bitwidth" = Some opt' /\
    value opt' = PyInt 32 /\
    default opt' = default opt /\
    description opt' = description opt /\
    validator opt' = validator opt /\
    (forall m, m <> "default_integer_bitwidth" ->
               entry after_set_32 m = entry initial m) /\
    _OPTIONS after_set_32 = _OPTIONS initial /\
    stdout after_set_32 = stdout initial.
Proof.
  apply (set_option_frame initial after_set_32
           "default_integer_bitwidth" (PyInt 32)).
  - unfold wf. compute_done.
  - reflexivity.
Defined.

(** The other option of the module is untouched by that call. *)
Example set_integer_keeps_float :
  entry after_set_32 "default_float_bitwidth"
  = entry initial "default_float_bitwidth".
Proof. reflexivity. Qed.

(** ** The registered validators answer instead of raising *)

(** The two validators the module registers return [True] on 32 and 64 and
    [False] on everything else; they never raise. *)
Lemma bitwidth_validator_returns x :
  bitwidth_validator x = Return (PyBool (py_in x [PyInt 32; PyInt 64])).
Proof. reflexivity. Qed.

Lemma bitwidth_validator_int z :
  bitwidth_validator (PyInt z) = Return (PyBool true) <-> z = 32%Z \/ z = 64%Z.
Proof.
  unfold bitwidth_validator, py_in. simpl. split.
  - intros [= H]. rewrite orb_false_r in H.
    apply orb_prop in H as [H | H]; apply Z.eqb_eq in H; auto.
  - intros [-> | ->]; reflexivity.
Qed.

(** C1, at the input where it fails: [default_integer_bitwidth] is
    registered, its validator answers [False] on 16 (the documented valid
    values are 32 and 64), and yet [set_option("default_integer_bitwidth",
    16)] returns normally, after which [get_option] returns 16 and no longer
    the 64 stored before the call. *)
Theorem set_option_stores_rejected_value :
  exists opt s',
    entry initial "default_integer_bitwidth" = Some opt /\
    validator opt (PyInt 16) = Return (PyBool false) /\
    get_option "default_integer_bitwidth" initial
      = (Return (PyInt 64), initial) /\
    set_option "default_integer_bitwidth" (PyInt 16) initial
      = (Return tt, s') /\
    get_option "default_integer_bitwidth" s' = (Return (PyInt 16), s').
Proof. eexists _, _. split_and!; reflexivity. Qed.

(** C2, at the state where it fails: after module initialisation and
    [set_option("default_integer_bitwidth", 16)], a reachable state, the
    registry binds [default_integer_bitwidth] to an [Option] whose current
    value, 16, is answered [False] by the option's own validator. *)
Theorem reachable_value_fails_validator :
  exists s opt,
    reachable s /\
    entry s "default_integer_bitwidth" = Some opt /\
    value opt = PyInt 16 /\
    validator opt (value opt) = Return (PyBool false).
Proof.
  exists (exec (Set_ "default_integer_bitwidth" (PyInt 16))
            (exec (Register "default_float_bitwidth" (PyInt 64)
                     float_bitwidth_description bitwidth_validator)
               (exec (Register "default_integer_bitwidth" (PyInt 64)
                        integer_bitwidth_description bitwidth_validator)
                  empty))).
  eexists. split_and!; [|reflexivity..].
  do 3 apply reachable_exec. apply reachable_empty.
Qed.

(** C3, as the code runs it: from module initialisation [get_option]
    returns 64; [set_option] with 32 returns normally and [get_option] then
    returns 32; [set_option] with 16 also returns normally instead of
    raising, [get_option] then returns 16, and [describe_option] prints a
    text that contains the name, the description and "Default: 64", but
    "Current: 16" and not "Current: 32". *)
Theorem bitwidth_scenario :
  let name := "default_integer_bitwidth" in
  get_option name initial = (Return (PyInt 64), initial) /\
  set_option name (PyInt 32) initial = (Return tt, after_set_32) /\
  get_option name after_set_32 = (Return (PyInt 32), after_set_32) /\
  set_option name (PyInt 16) after_set_32 = (Return tt, after_set_16) /\
  get_option name after_set_16 = (Return (PyInt 16), after_set_16) /\
  exists text,
    describe_option (Some name) after_set_16
      = (Return tt,
         mkState (_OPTIONS after_set_16) (heap after_set_16) (text +:+ nl)) /\
    contains name text = true /\
    contains integer_bitwidth_description text = true /\
    contains "Default: 64" text = true /\
    contains "Current: 16" text = true /\
    contains "Current: 32" text = false.
Proof.
  simpl. split_and!; try reflexivity.
  eexists. split_and!; [reflexivity | vm_compute; reflexivity ..].
Qed.

(** Up to the last assignment the scenario runs as described: after
    [set_option] with 32 the printed text has "Default: 64" and
    "Current: 32". *)
Example describe_after_set_32 :
  exists text,
    stdout (snd (describe_option (Some "default_integer_bitwidth")
                   after_set_32)) = text +:+ nl /\
    contains "Default: 64" text = true /\
    contains "Current: 32" text = true.
Proof. eexists. split_and!; [reflexivity | vm_compute; reflexivity ..]. Qed.

(** * Further properties of the module *)

(** ** Text *)

Lemma append_cons c a b : String c a +:+ b = String c (a +:+ b).
Proof. reflexivity. Qed.

Lemma append_nil_r a : a +:+ EmptyString = a.
Proof.
  induction a as [|c a IH]; [done|]. by rewrite append_cons, IH.
Qed.

Lemma append_assoc a b c : (a +:+ b) +:+ c = a +:+ (b +:+ c).
Proof.
  induction a as [|x a IH]; [done|]. by rewrite !append_cons, IH.
Qed.

Lemma prefix_append a b : String.prefix a (a +:+ b) = true.
Proof.
  induction a as [|c a IH]; [by destruct b|].
  rewrite append_cons. simpl. destruct (ascii_dec c c); [done | congruence].
Qed.

Lemma prefix_refl a : String.prefix a a = true.
Proof. rewrite <- (append_nil_r a) at 2. apply prefix_append. Qed.

Lemma contains_prefix x h : String.prefix x h = true -> contains x h = true.
Proof. intros H. destruct h; simpl in *; by rewrite H. Qed.

Lemma contains_here x b : contains x (x +:+ b) = true.
Proof. apply contains_prefix, prefix_append. Qed.

Lemma contains_self x : contains x x = true.
Proof. rewrite <- (append_nil_r x) at 2. apply contains_here. Qed.

Lemma contains_append_r x a b :
  contains x b = true -> contains x (a +:+ b) = true.
Proof.
  intros H. induction a as [|c a IH]; [done|].
  rewrite append_cons. simpl. rewrite IH. apply orb_true_r.
Qed.


Lemma py_str_Return x : printable x = true -> exists t, py_str x = Return t.
Proof.
  destruct x as [|[|]|z|t]; simpl; intros H; try by eexists.
  rewrite H. by eexists.
Qed.

Lemma py_str_Raise x : printable x = false -> py_str x = Raise digits_error.
Proof. destruct x as [|[|]|z|t]; simpl; intros H; try done. by rewrite H. Qed.

Lemma py_str_Return_inv x t : py_str x = Return t -> printable x = true.
Proof.
  destruct (printable x) eqn:E; [done|].
  rewrite (py_str_Raise x E). discriminate.
Qed.

(** The description is built exactly for the printable options. *)
Lemma build_Return name opt :
  printable_option opt = true ->
  exists d v,
    py_str (default opt) = Return d /\ py_str (value opt) = Return v /\
    _build_option_description name opt =
      Return (name +:+ ":" +:+ nl
              +:+ tab +:+ description opt +:+ nl
              +:+ tab +:+ "[Default: " +:+ d
              +:+ "] [Current: " +:+ v +:+ "]").
Proof.
  unfold printable_option. intros H. apply andb_prop in H as [Hd Hv].
  destruct (py_str_Return _ Hd) as [d Hd'].
  destruct (py_str_Return _ Hv) as [v Hv'].
  exists d, v. unfold _build_option_description. by rewrite Hd', Hv'.
Qed.

Lemma build_Raise name opt :
  printable_option opt = false ->
  _build_option_description name opt = Raise digits_error.
Proof.
  unfold printable_option, _build_option_description. intros H.
  destruct (printable (default opt)) eqn:Hd.
  - destruct (py_str_Return _ Hd) as [d ->]. simpl in H.
    by rewrite (py_str_Raise _ H).
  - by rewrite (py_str_Raise _ Hd).
Qed.


Lemma block_contents name desc d v :
  let text := name +:+ ":" +:+ nl +:+ tab +:+ desc +:+ nl
              +:+ tab +:+ "[Default: " +:+ d
              +:+ "] [Current: " +:+ v +:+ "]" in
  String.prefix (name +:+ ":") text = true /\
  contains desc text = true /\
  contains ("[Default: " +:+ d +:+ "]") text = true /\
  contains ("[Current: " +:+ v +:+ "]") text = true.
Proof.
  intros text. unfold text. split_and!.
  - rewrite <- append_assoc. apply prefix_append.
  - do 4 apply contains_append_r. apply contains_here.
  - do 7 apply contains_append_r.
    replace ("[Default: " +:+ d +:+ "] [Current: " +:+ v +:+ "]")
      with (("[Default: " +:+ d +:+ "]") +:+ " [Current: " +:+ v +:+ "]").
    + apply contains_here.
    + by rewrite !append_assoc.
  - do 7 apply contains_append_r.
    change ("[Default: " +:+ d +:+ "] [Current: " +:+ v +:+ "]")
      with ("[Default: " +:+ d +:+ "] " +:+ "[Current: " +:+ v +:+ "]").
    do 3 apply contains_append_r. apply contains_self.
Qed.

(** X1: for every name and every [Option], [_build_option_description]
    either returns a text, and then [str] converted the default and the
    value, and the text starts with the name followed by a colon and
    contains the description, the converted default in the form
    "[Default: ...]" and the converted value in the form "[Current: ...]";
    or it raises, and then the default or the value is an integer of more
    than 4300 digits and the exception is the [ValueError] of the
    conversion. *)
Theorem build_option_description_contents name opt :
  match _build_option_description name opt with
  | Return text =>
      exists d v,
        py_str (default opt) = Return d /\ py_str (value opt) = Return v /\
        String.prefix (name +:+ ":") text = true /\
        contains (description opt) text = true /\
        contains ("[Default: " +:+ d +:+ "]") text = true /\
        contains ("[Current: " +:+ v +:+ "]") text = true
  | Raise e =>
      e = digits_error /\ printable_option opt = false
  end.
Proof.
  destruct (printable_option opt) eqn:E.
  - destruct (build_Return name opt E) as (d & v & Hd & Hv & ->).
    exists d, v. split_and!; [done..| | | |];
      apply (block_contents name (description opt) d v).
  - by rewrite (build_Raise name opt E).
Qed.

(** ** Describing options *)

Lemma dict_get_elem {V} (d : Dict V) k v : dict_get d k = Some v -> (k, v) ∈ d.
Proof.
  induction d as [|[k0 v0] d IH]; simpl; [discriminate|].
  destruct (String.eqb k0 k) eqn:E.
  - apply String.eqb_eq in E as ->. intros [= ->]. left.
  - intros H. right. by apply IH.
Qed.

Lemma elem_dict_get {V} (d : Dict V) k v :
  NoDup (keys d) -> (k, v) ∈ d -> dict_get d k = Some v.
Proof.
  induction d as [|[k0 v0] d IH]; simpl; intros Hnd Hin; [inversion Hin|].
  apply NoDup_cons in Hnd as [Hk0 Hnd].
  apply elem_of_cons in Hin as [[= -> ->] | Hin].
  - by rewrite String.eqb_refl.
  - destruct (String.eqb k0 k) eqn:E; [|by apply IH].
    apply String.eqb_eq in E as ->. exfalso. apply Hk0.
    change k with (fst (k, v)). unfold keys. by apply list_elem_of_fmap_2.
Qed.

(** With every reference live, following the references of a dictionary
    succeeds and yields its keys, in order, each with its object. *)
Lemma load_items_live d s :
  Forall (fun r => r < length (heap s)) (values d) ->
  exists its,
    load_items d s = (Return its, s) /\
    map fst its = keys d /\
    (forall n opt, (n, opt) ∈ its <->
                   exists r, (n, r) ∈ d /\ heap s !! r = Some opt).
Proof.
  induction d as [|[name r] d IH]; simpl; intros Hlive.
  - exists []. split_and!; [done..|].
    intros n opt. split; [intros H; inversion H|].
    intros (r & H & _). inversion H.
  - apply Forall_cons in Hlive as [Hr Hlive].
    destruct (IH Hlive) as (its & Hrun & Hkeys & Hin).
    apply lookup_lt_is_Some in Hr as [opt0 Hopt0].
    exists ((name, opt0) :: its). split_and!.
    + unfold_monad. unfold ref in *. cbv beta. rewrite Hopt0. cbv beta iota.
      fold (load_items d). by rewrite Hrun.
    + simpl. by rewrite Hkeys.
    + intros n opt. rewrite elem_of_cons, Hin. split.
      * intros [[= -> ->] | (r' & H & Hopt)].
        -- exists r. split; [left | done].
        -- exists r'. split; [by right | done].
      * intros (r' & H & Hopt).
        apply elem_of_cons in H as [[= -> ->] | H].
        -- left. congruence.
        -- right. eauto.
Qed.

Lemma items_wf s :
  wf s ->
  exists its,
    items s = (Return its, s) /\
    map fst its = keys (_OPTIONS s) /\
    (forall n opt, (n, opt) ∈ its <-> entry s n = Some opt).
Proof.
  intros (Hkeys & _ & Hlive).
  destruct (load_items_live (_OPTIONS s) s Hlive) as (its & Hrun & Hk & Hin).
  exists its. split_and!; [done..|].
  intros n opt. rewrite Hin. unfold entry. split.
  - intros (r & Hr & Hopt). by rewrite (elem_dict_get _ _ _ Hkeys Hr).
  - destruct (dict_get (_OPTIONS s) n) as [r|] eqn:E; [|discriminate].
    intros Hopt. exists r. split; [by apply dict_get_elem | done].
Qed.

Lemma wf_initial : wf initial.
Proof. unfold wf. compute_done. Qed.



(** One item that is not printable makes the whole generator raise. *)
Lemma build_all_Raise its n opt :
  (n, opt) ∈ its -> printable_option opt = false ->
  build_all its = Raise digits_error.
Proof.
  induction its as [|[n0 opt0] its IH]; intros Hin Hopt; [inversion Hin|].
  simpl. destruct (printable_option opt0) eqn:E0.
  - destruct (build_Return n0 opt0 E0) as (d & v & _ & _ & ->).
    apply elem_of_cons in Hin as [[= -> ->] | Hin]; [congruence|].
    by rewrite IH.
  - by rewrite (build_Raise n0 opt0 E0).
Qed.



(** The two ways [describe_option] meets an option that is not printable. *)
Lemma describe_option_Some_unprintable s n opt :
  entry s n = Some opt -> printable_option opt = false ->
  describe_option (Some n) s = (Raise digits_error, s).
Proof.
  intros Hentry Hopt.
  by rewrite describe_option_eq, Hentry, (build_Raise n opt Hopt).
Qed.

Lemma describe_option_None_unprintable s n opt :
  wf s -> entry s n = Some opt -> printable_option opt = false ->
  describe_option None s = (Raise digits_error, s).
Proof.
  intros Hwf Hentry Hopt.
  destruct (items_wf s Hwf) as (its & Hrun & _ & Hin).
  unfold items in Hrun. rewrite describe_option_None_eq, Hrun.
  apply Hin in Hentry. by rewrite (build_all_Raise its n opt Hentry Hopt).
Qed.





(** X4: [describe_option], with or without a name, raising or not, never
    touches the registry or any [Option]; what was on the standard output
    before is still there, at the front. *)
Theorem describe_option_only_prints name s :
  _OPTIONS (snd (describe_option name s)) = _OPTIONS s /\
  heap (snd (describe_option name s)) = heap s /\
  String.prefix (stdout s) (stdout (snd (describe_option name s))) = true.
Proof.
  destruct (describe_option_registry name s) as [Hd Hh].
  split_and!; [done..|].
  destruct name as [name|].
  - rewrite describe_option_eq. destruct (entry s name) as [opt|].
    + destruct (_build_option_description name opt); simpl;
        [apply prefix_append | apply prefix_refl].
    + destruct (dict_get _ _); apply prefix_refl.
  - rewrite describe_option_None_eq.
    destruct (load_items _ s) as [[its|e] s']; [|apply prefix_refl].
    destruct (build_all its); simpl; [apply prefix_append | apply prefix_refl].
Qed.

(** X5: only [describe_option] prints: a call of [_register_option],
    [get_option] or [set_option] leaves the standard output as it is. *)
Theorem only_describe_prints c s :
  is_describe c = false -> stdout (exec c s) = stdout s.
Proof.
  destruct c as [name d desc f|name|name val|name]; simpl; [| | |done];
    intros _.
  - rewrite _register_option_eq. by destruct (f d).
  - by rewrite get_option_state.
  - rewrite set_option_eq. destruct (dict_get _ _) as [r|]; [|done].
    destruct (heap s !! r) as [opt|]; [|done].
    by destruct (validator opt val).
Qed.

Lemma only_describe_prints_witness :
  stdout (exec (Set_ "default_integer_bitwidth" (PyInt 32)) initial)
  = stdout initial.
Proof.
  apply (only_describe_prints (Set_ "default_integer_bitwidth" (PyInt 32))).
  reflexivity.
Defined.

(** ** Failing calls *)

Lemma run_eq c s :
  run c s =
    match c with
    | Register name d desc f =>
        match _register_option name d desc f s with
        | (Return _, s') => (Return PyNone, s')
        | (Raise e, s') => (Raise e, s')
        end
    | Get name => get_option name s
    | Set_ name val =>
        match set_option name val s with
        | (Return _, s') => (Return PyNone, s')
        | (Raise e, s') => (Raise e, s')
        end
    | Describe name =>
        match describe_option name s with
        | (Return _, s') => (Return PyNone, s')
        | (Raise e, s') => (Raise e, s')
        end
    end.
Proof. by destruct c. Qed.

Lemma exec_run c s : exec c s = snd (run c s).
Proof.
  rewrite run_eq. destruct c as [name d desc f|name|name val|name]; simpl.
  - by destruct (_register_option name d desc f s) as [[?|?] ?].
  - done.
  - by destruct (set_option name val s) as [[?|?] ?].
  - by destruct (describe_option name s) as [[?|?] ?].
Qed.

(** X6: a call of any of the four functions that raises leaves the state
    exactly as it found it: no entry, no field and no output is changed by
    a failed call. *)
Theorem failed_call_keeps_state c s e :
  fst (run c s) = Raise e -> snd (run c s) = s.
Proof.
  rewrite run_eq. destruct c as [name d desc f|name|name val|name].
  - rewrite _register_option_eq. by destruct (f d).
  - intros _. apply get_option_state.
  - rewrite set_option_eq. destruct (dict_get _ _) as [r|]; [|done].
    destruct (heap s !! r) as [opt|]; [|done].
    by destruct (validator opt val).
  - destruct name as [name|].
    + rewrite describe_option_eq. destruct (entry s name) as [opt|].
      * by destruct (_build_option_description name opt).
      * by destruct (dict_get _ _).
    + rewrite describe_option_None_eq.
      destruct (load_items _ s) as [[its|e'] s']; [|done].
      by destruct (build_all its).
Qed.

Lemma failed_call_keeps_state_witness :
  snd (run (Describe (Some "default_bitwidth")) after_set_32) = after_set_32.
Proof.
  apply (failed_call_keeps_state (Describe (Some "default_bitwidth"))
           after_set_32 (KeyError "default_bitwidth")).
  reflexivity.
Defined.



(** ** Repeated writes *)

(** X8: the last write wins, and nothing of the earlier write is left:
    when [set_option(n, v1)] and [set_option(n, v2)] each return normally
    from a state, doing the second after the first ends in the very state
    the second alone gives.  With [v1 = v2]: repeating a [set_option]
    changes nothing. *)
Theorem set_option_last_write_wins s s1 s2 n v1 v2 :
  set_option n v1 s = (Return tt, s1) ->
  set_option n v2 s = (Return tt, s2) ->
  set_option n v2 s1 = (Return tt, s2).
Proof.
  rewrite !set_option_eq.
  destruct (dict_get (_OPTIONS s) n) as [r|] eqn:Hget; [|discriminate].
  destruct (heap s !! r) as [opt|] eqn:Hr; [|discriminate].
  destruct (validator opt v1); [|discriminate].
  destruct (validator opt v2) eqn:Hv2; [|discriminate].
  intros [= <-] [= <-]. simpl. rewrite Hget.
  rewrite list_lookup_insert_eq by (by eapply lookup_lt_Some).
  simpl. rewrite Hv2. by rewrite list_insert_insert_eq.
Qed.

Lemma set_option_last_write_wins_witness :
  set_option "default_integer_bitwidth" (PyInt 64) after_set_32
  = (Return tt, initial).
Proof.
  apply (set_option_last_write_wins initial after_set_32 initial
           "default_integer_bitwidth" (PyInt 32) (PyInt 64));
    reflexivity.
Defined.

(** ** What a call does to the other entries *)

Lemma _register_option_entry_ne s n m d desc f :
  wf s -> m <> n ->
  entry (snd (_register_option n d desc f s)) m = entry s m.
Proof.
  intros Hwf Hne. rewrite _register_option_eq.
  destruct (f d); [|done]. unfold entry. simpl.
  rewrite dict_get_set_ne by done.
  destruct (dict_get (_OPTIONS s) m) as [r|] eqn:Hget; [|done].
  apply lookup_app_l. destruct (load_wf s m r Hwf Hget) as [opt Hopt].
  by eapply lookup_lt_Some.
Qed.

Lemma set_option_entry_ne s n m v :
  wf s -> m <> n -> entry (snd (set_option n v s)) m = entry s m.
Proof.
  intros (_ & Hnodup & _) Hne. rewrite set_option_eq. unfold entry.
  destruct (dict_get (_OPTIONS s) n) as [r|] eqn:Hget; [|done].
  destruct (heap s !! r) as [opt|] eqn:Hr; [|done].
  destruct (validator opt v); [|done]. simpl.
  destruct (dict_get (_OPTIONS s) m) as [r'|] eqn:Hget'; [|done].
  apply list_lookup_insert_ne. intros <-.
  apply Hne. by eapply dict_get_inj.
Qed.

Lemma set_option_entry_eq s n v opt :
  entry s n = Some opt ->
  entry (snd (set_option n v s)) n = Some opt \/
  entry (snd (set_option n v s)) n = Some (with_value opt v).
Proof.
  unfold entry. rewrite set_option_eq.
  destruct (dict_get (_OPTIONS s) n) as [r|] eqn:Hget; [|discriminate].
  intros Hr. unfold ref in *. rewrite Hr.
  destruct (validator opt v); simpl; rewrite Hget; [|by left].
  right. apply list_lookup_insert_eq. by eapply lookup_lt_Some.
Qed.

(** One call that does not register [n] keeps [n]'s entry and its default,
    description and validator. *)
Lemma exec_entry_fields c s n opt :
  wf s -> entry s n = Some opt -> registers n c = false ->
  exists opt',
    entry (exec c s) n = Some opt' /\
    default opt' = default opt /\
    description opt' = description opt /\
    validator opt' = validator opt.
Proof.
  intros Hwf Hentry Hc.
  destruct c as [m d desc f|m|m val|m]; simpl in *.
  - apply String.eqb_neq in Hc.
    rewrite _register_option_entry_ne by done. eauto.
  - rewrite get_option_state. eauto.
  - destruct (String.eqb m n) eqn:E.
    + apply String.eqb_eq in E as ->.
      destruct (set_option_entry_eq s n val opt Hentry) as [-> | ->]; eauto.
    + apply String.eqb_neq in E.
      rewrite set_option_entry_ne by done. eauto.
  - destruct (describe_option_registry m s) as [Hd Hh].
    unfold entry in *. rewrite Hd, Hh. eauto.
Qed.

Lemma exec_registered_mono c s n : registered s n -> registered (exec c s) n.
Proof.
  unfold registered. intros Hreg.
  destruct c as [m d desc f|m|m val|m]; simpl.
  - rewrite _register_option_eq. destruct (f d); [|done]. simpl.
    destruct (String.eqb m n) eqn:E.
    + apply String.eqb_eq in E as ->. rewrite dict_get_set_eq. by eexists.
    + apply String.eqb_neq in E. by rewrite dict_get_set_ne.
  - by rewrite get_option_state.
  - rewrite set_option_eq. destruct (dict_get _ m) as [r|]; [|done].
    destruct (heap s !! r) as [opt|]; [|done].
    by destruct (validator opt val).
  - destruct (describe_option_registry m s) as [Hd _]. by rewrite Hd.
Qed.

Lemma foldr_exec_wf cs s : wf s -> wf (foldr exec s cs).
Proof. intros Hwf. induction cs; simpl; [done | by apply exec_wf]. Qed.

(** X9: options are never removed.  Whatever calls follow ([cs], the most
    recent first), a name that is registered stays registered, and from a
    well-formed state it keeps having an entry. *)
Theorem options_never_removed cs s n :
  wf s -> registered s n ->
  registered (foldr exec s cs) n /\ is_Some (entry (foldr exec s cs) n).
Proof.
  intros Hwf Hreg.
  assert (Hreg' : registered (foldr exec s cs) n).
  { induction cs; simpl; [done | by apply exec_registered_mono]. }
  split; [done|]. apply registered_entry; [by apply foldr_exec_wf | done].
Qed.

Lemma options_never_removed_witness :
  registered
    (foldr exec initial
       [Register "default_integer_bitwidth" (PyInt 16) "narrow"
          (fun _ => Raise (ValueError "no"));
        Set_ "default_float_bitwidth" (PyInt 32);
        Describe None])
    "default_float_bitwidth" /\
  is_Some
    (entry
       (foldr exec initial
          [Register "default_integer_bitwidth" (PyInt 16) "narrow"
             (fun _ => Raise (ValueError "no"));
           Set_ "default_float_bitwidth" (PyInt 32);
           Describe None])
       "default_float_bitwidth").
Proof.
  apply (options_never_removed _ initial "default_float_bitwidth").
  - unfold wf. compute_done.
  - exists 1. reflexivity.
Defined.

(** X10: only registration sets an option's default, description and
    validator.  From a well-formed state, after any calls none of which
    registers [n] ([cs], the most recent first), [n] still has an entry
    with the default, the description and the validator it had. *)
Theorem fields_fixed_without_register cs s n opt :
  wf s -> entry s n = Some opt ->
  forallb (fun c => negb (registers n c)) cs = true ->
  exists opt',
    entry (foldr exec s cs) n = Some opt' /\
    default opt' = default opt /\
    description opt' = description opt /\
    validator opt' = validator opt.
Proof.
  intros Hwf Hentry. induction cs as [|c cs IH]; simpl; [eauto|].
  intros H. apply andb_prop in H as [Hc Hcs].
  destruct (IH Hcs) as (opt1 & Hentry1 & Hd1 & Hdesc1 & Hv1).
  apply negb_true_iff in Hc.
  destruct (exec_entry_fields c (foldr exec s cs) n opt1)
    as (opt2 & Hentry2 & Hd2 & Hdesc2 & Hv2);
    [by apply foldr_exec_wf | done | done |].
  exists opt2. split_and!; congruence.
Qed.

Lemma fields_fixed_without_register_witness :
  exists opt',
    entry
      (foldr exec initial
         [Set_ "default_integer_bitwidth" (PyInt 16);
          Register "default_float_bitwidth" (PyInt 32) "other"
            (fun _ => Return PyNone);
          Set_ "default_integer_bitwidth" (PyInt 32)])
      "default_integer_bitwidth" = Some opt' /\
    default opt' = PyInt 64 /\
    description opt' = integer_bitwidth_description /\
    validator opt' = bitwidth_validator.
Proof.
  apply (fields_fixed_without_register _ initial "default_integer_bitwidth"
           (mkOption (PyInt 64) (PyInt 64) integer_bitwidth_description
                     bitwidth_validator)).
  - unfold wf. compute_done.
  - reflexivity.
  - reflexivity.
Defined.

(** X11: registering [n], whether it goes through or fails, leaves the
    entry of every other name as it was, and [get_option] on such a name
    gives what it gave before. *)
Theorem register_keeps_other_options s n m d desc f :
  wf s -> m <> n ->
  entry (snd (_register_option n d desc f s)) m = entry s m /\
  fst (get_option m (snd (_register_option n d desc f s)))
    = fst (get_option m s).
Proof.
  intros Hwf Hne.
  pose proof (_register_option_entry_ne s n m d desc f Hwf Hne) as Hentry.
  split; [done|].
  rewrite !get_option_eq. unfold entry in Hentry.
  assert (Hget : dict_get (_OPTIONS (snd (_register_option n d desc f s))) m
                 = dict_get (_OPTIONS s) m).
  { rewrite _register_option_eq. destruct (f d); [|done]. simpl.
    by apply dict_get_set_ne. }
  rewrite Hget in *. destruct (dict_get (_OPTIONS s) m) as [r|]; [|done].
  unfold ref in *. rewrite Hentry. by destruct (heap s !! r).
Qed.

Lemma register_keeps_other_options_witness :
  entry (snd (_register_option "default_decimal_bitwidth" (PyInt 128)
                "decimal width" (fun _ => Return PyNone) after_set_32))
        "default_integer_bitwidth"
    = entry after_set_32 "default_integer_bitwidth" /\
  fst (get_option "default_integer_bitwidth"
         (snd (_register_option "default_decimal_bitwidth" (PyInt 128)
                 "decimal width" (fun _ => Return PyNone) after_set_32)))
    = fst (get_option "default_integer_bitwidth" after_set_32).
Proof.
  apply (register_keeps_other_options after_set_32).
  - unfold wf. compute_done.
  - discriminate.
Defined.

(** X12: a name registered for the first time goes to the end of the
    dictionary: the keys afterwards are the keys before followed by the
    new name, which is the order [describe_option()] prints in. *)
Theorem register_new_name_appends s n d desc f :
  ~ registered s n -> passes f d ->
  keys (_OPTIONS (snd (_register_option n d desc f s)))
    = (keys (_OPTIONS s) ++ [n])%list.
Proof.
  intros Hn [res Hres]. rewrite _register_option_eq, Hres. simpl.
  apply keys_dict_set_absent.
  destruct (dict_get (_OPTIONS s) n) eqn:E; [|done].
  exfalso. apply Hn. by eexists.
Qed.

Lemma register_new_name_appends_witness :
  keys (_OPTIONS (snd (_register_option "default_decimal_bitwidth" (PyInt 128)
                         "decimal width" (fun _ => Return PyNone) initial)))
    = (keys (_OPTIONS initial) ++ ["default_decimal_bitwidth"])%list.
Proof.
  apply (register_new_name_appends initial).
  - intros [r Hr]. vm_compute in Hr. discriminate.
  - exists PyNone. reflexivity.
Defined.

(** ** Reachable states *)

(** X13: in every state the module's functions can reach, no [Option]
    object is shared: two names bound to the same object are the same
    name, and the object is there. *)
Theorem reachable_no_shared_option s n m r :
  reachable s ->
  dict_get (_OPTIONS s) n = Some r -> dict_get (_OPTIONS s) m = Some r ->
  n = m /\ is_Some (heap s !! r).
Proof.
  intros Hreach Hn Hm. pose proof (reachable_wf s Hreach) as Hwf.
  split; [|by eapply load_wf].
  destruct Hwf as (_ & Hnodup & _). by eapply dict_get_inj.
Qed.

Lemma reachable_no_shared_option_witness :
  "default_float_bitwidth" = "default_float_bitwidth" /\
  is_Some (heap initial !! 1).
Proof.
  apply (reachable_no_shared_option initial).
  - apply (reachable_exec
             (Register "default_float_bitwidth" (PyInt 64)
                float_bitwidth_description bitwidth_validator)).
    apply (reachable_exec
             (Register "default_integer_bitwidth" (PyInt 64)
                integer_bitwidth_description bitwidth_validator)).
    apply reachable_empty.
  - reflexivity.
  - reflexivity.
Defined.

(** X14: in every reachable state each registered name has an entry, and
    the entry's validator returns without raising on the entry's current
    value. *)
Theorem reachable_entries_validated s n :
  reachable s -> registered s n ->
  exists opt, entry s n = Some opt /\ passes (validator opt) (value opt).
Proof.
  intros Hreach Hreg.
  destruct (registered_entry s n (reachable_wf s Hreach) Hreg) as [opt Hopt].
  exists opt. split; [done|]. by eapply reachable_values_pass.
Qed.

Lemma reachable_entries_validated_witness :
  exists opt,
    entry initial "default_integer_bitwidth" = Some opt /\
    passes (validator opt) (value opt).
Proof.
  apply (reachable_entries_validated initial).
  - apply (reachable_exec
             (Register "default_float_bitwidth" (PyInt 64)
                float_bitwidth_description bitwidth_validator)).
    apply (reachable_exec
             (Register "default_integer_bitwidth" (PyInt 64)
                integer_bitwidth_description bitwidth_validator)).
    apply reachable_empty.
  - exists 0. reflexivity.
Defined.

(** X15: starting from nothing, a name that none of the calls made so far
    registers ([cs], the most recent first) is unknown: [get_option] on it
    raises [KeyError]. *)
Theorem never_registered_raises cs m :
  forallb (fun c => negb (registers m c)) cs = true ->
  get_option m (foldr exec empty cs)
    = (Raise (KeyError m), foldr exec empty cs).
Proof.
  intros Hcs. pose proof (never_registered_absent cs m Hcs) as Hm.
  rewrite get_option_eq.
  destruct (dict_get _ m) eqn:E; [|done]. exfalso. apply Hm. by eexists.
Qed.

Lemma never_registered_raises_witness :
  get_option "default_float_bitwidth"
    (foldr exec empty
       [Set_ "default_float_bitwidth" (PyInt 32);
        Register "default_integer_bitwidth" (PyInt 64)
          integer_bitwidth_description bitwidth_validator])
  = (Raise (KeyError "default_float_bitwidth"),
     foldr exec empty
       [Set_ "default_float_bitwidth" (PyInt 32);
        Register "default_integer_bitwidth" (PyInt 64)
          integer_bitwidth_description bitwidth_validator]).
Proof.
  apply (never_registered_raises
           [Set_ "default_float_bitwidth" (PyInt 32);
            Register "default_integer_bitwidth" (PyInt 64)
              integer_bitwidth_description bitwidth_validator]).
  reflexivity.
Defined.

(** ** The module's own options *)

(** X16: for either option the module registers and for every value [v]
    ([None], a boolean, an integer or a string), [set_option] right after
    module initialisation returns normally and [get_option] then returns
    [v]: the registered validators stop no assignment. *)
Theorem module_options_take_every_value n v :
  n = "default_integer_bitwidth" \/ n = "default_float_bitwidth" ->
  exists s',
    set_option n v initial = (Return tt, s') /\
    get_option n s' = (Return v, s').
Proof.
  intros [-> | ->]; eexists; split; reflexivity.
Qed.

Lemma module_options_take_every_value_witness :
  exists s',
    set_option "default_float_bitwidth" (PyStr "wide") initial
      = (Return tt, s') /\
    get_option "default_float_bitwidth" s' = (Return (PyStr "wide"), s').
Proof.
  apply (module_options_take_every_value "default_float_bitwidth").
  right. reflexivity.
Defined.

(** ** Writing, then describing *)



(** ** The digit limit of [str] *)

(** [10 ** 4300] and its opposite are the shortest integers beyond the
    limit: 4301 digits. *)
Lemma pow_beyond_limit : (10 ^ int_max_str_digits <= Z.abs (10 ^ 4300))%Z.
Proof.
  rewrite Z.abs_eq; [apply Z.le_refl | by apply Z.pow_nonneg].
Qed.

Lemma opp_pow_beyond_limit :
  (10 ^ int_max_str_digits <= Z.abs (- 10 ^ 4300))%Z.
Proof. rewrite Z.abs_opp. apply pow_beyond_limit. Qed.

Lemma printable_option_beyond_limit d z desc f :
  (10 ^ int_max_str_digits <= Z.abs z)%Z ->
  printable_option (mkOption d (PyInt z) desc f) = false.
Proof.
  intros Hz. unfold printable_option. apply andb_false_iff. right.
  by apply Z.ltb_ge.
Qed.

(** X18: in a well-formed state, when a registered option has a default
    or a value of more than 4300 digits, both [describe_option] on its
    name and [describe_option()] with no name raise the [ValueError] of
    the conversion, print nothing and leave the state as it is. *)
Theorem describe_option_digit_limit s n opt :
  wf s -> entry s n = Some opt -> printable_option opt = false ->
  describe_option (Some n) s = (Raise digits_error, s) /\
  describe_option None s = (Raise digits_error, s).
Proof.
  intros Hwf Hentry Hopt. split.
  - by eapply describe_option_Some_unprintable.
  - by eapply describe_option_None_unprintable.
Qed.

Lemma describe_option_digit_limit_witness :
  describe_option (Some "default_integer_bitwidth")
    (snd (set_option "default_integer_bitwidth" (PyInt (10 ^ 4300)) initial))
  = (Raise digits_error,
     snd (set_option "default_integer_bitwidth" (PyInt (10 ^ 4300)) initial)) /\
  describe_option None
    (snd (set_option "default_integer_bitwidth" (PyInt (10 ^ 4300)) initial))
  = (Raise digits_error,
     snd (set_option "default_integer_bitwidth" (PyInt (10 ^ 4300)) initial)).
Proof.
  apply (describe_option_digit_limit
           (snd (set_option "default_integer_bitwidth" (PyInt (10 ^ 4300))
                   initial))
           "default_integer_bitwidth"
           (mkOption (PyInt 64) (PyInt (10 ^ 4300))
                     integer_bitwidth_description bitwidth_validator)).
  - apply set_option_wf, wf_initial.
  - reflexivity.
  - apply printable_option_beyond_limit, pow_beyond_limit.
Defined.

(** X19: the module's validators let such integers through: for either
    option the module registers and every integer [z] of more than 4300
    digits, [set_option] right after module initialisation returns
    normally and [get_option] returns [z], after which [describe_option]
    on that name and [describe_option()] with no name raise the
    [ValueError] of the conversion and print nothing. *)
Theorem module_options_digit_limit n z :
  n = "default_integer_bitwidth" \/ n = "default_float_bitwidth" ->
  (10 ^ int_max_str_digits <= Z.abs z)%Z ->
  exists s',
    set_option n (PyInt z) initial = (Return tt, s') /\
    get_option n s' = (Return (PyInt z), s') /\
    describe_option (Some n) s' = (Raise digits_error, s') /\
    describe_option None s' = (Raise digits_error, s').
Proof.
  intros Hn Hz.
  assert (Hbig : forall desc,
             printable_option
               (mkOption (PyInt 64) (PyInt z) desc bitwidth_validator)
             = false).
  { intros desc. by apply printable_option_beyond_limit. }
  exists (snd (set_option n (PyInt z) initial)).
  assert (Hwf : wf (snd (set_option n (PyInt z) initial))).
  { apply set_option_wf, wf_initial. }
  destruct Hn as [-> | ->]; (split_and!; [reflexivity | reflexivity | |]).
  - apply (describe_option_Some_unprintable _ "default_integer_bitwidth"
             (mkOption (PyInt 64) (PyInt z) integer_bitwidth_description
                       bitwidth_validator)); [reflexivity | apply Hbig].
  - apply (describe_option_None_unprintable _ "default_integer_bitwidth"
             (mkOption (PyInt 64) (PyInt z) integer_bitwidth_description
                       bitwidth_validator));
      [exact Hwf | reflexivity | apply Hbig].
  - apply (describe_option_Some_unprintable _ "default_float_bitwidth"
             (mkOption (PyInt 64) (PyInt z) float_bitwidth_description
                       bitwidth_validator)); [reflexivity | apply Hbig].
  - apply (describe_option_None_unprintable _ "default_float_bitwidth"
             (mkOption (PyInt 64) (PyInt z) float_bitwidth_description
                       bitwidth_validator));
      [exact Hwf | reflexivity | apply Hbig].
Qed.

Lemma module_options_digit_limit_witness :
  exists s',
    set_option "default_float_bitwidth" (PyInt (- 10 ^ 4300)) initial
      = (Return tt, s') /\
    get_option "default_float_bitwidth" s' = (Return (PyInt (- 10 ^ 4300)), s') /\
    describe_option (Some "default_float_bitwidth") s'
      = (Raise digits_error, s') /\
    describe_option None s' = (Raise digits_error, s').
Proof.
  apply (module_options_digit_limit "default_float_bitwidth" (- 10 ^ 4300)).
  - right. reflexivity.
  - apply opp_pow_beyond_limit.
Defined.
